(** * Protein-Folding-Toy-Model: the greedy optimizer loop of the tutorial notebook

    The repository's only source is [protein-folding-tutorial.ipynb].  Its
    cell 10 drives an [AminoAcidChain] object [aa] through a greedy local
    search:

<<
    num_steps = 1000
    energy_change = np.zeros(num_steps)
    step = 0
    while step < num_steps:
        success = aa.move()
        if success == True:
            aa.temp_energy = aa.measure_energy(aa.temp_x, aa.temp_y)
            if (aa.temp_energy - aa.prev_energy < 0):
                print("Step:", step, "Update... Old energy: ", aa.prev_energy, "New energy:", aa.temp_energy)
                aa.x = np.array(aa.temp_x)
                aa.y = np.array(aa.temp_y)
                aa.prev_energy = aa.temp_energy
                plot_aa(aa)
            else:
                pass
            energy_change[step] = aa.prev_energy
            step += 1
    print("The lowest energy we could find is %d"%aa.prev_energy)
>>

    The class [AminoAcidChain] (module [proteinfolding_classes]) and
    [plot_aa] (module [proteinfolding_funcs]) are imported by the notebook
    but are not part of the sources; the loop is embedded over them as
    parameters, and the energy function is additionally modelled from the
    specification's description. *)

From stdpp Require Import base list relations.
From Stdlib Require Import ZArith Lia.

Local Open Scope Z_scope.

(** ** Data model *)

(** The fields of the [aa] object that the notebook reads or writes.
    Cell 8 builds it as
    [AminoAcidChain(len(chain.x), np.sort(chain.h), np.array(chain.x), np.array(chain.y))]:
    a length, the sorted indices of the hydrophobic residues, and the two
    coordinate arrays.  [temp_x], [temp_y] hold the candidate left behind by
    [move()], [prev_energy] is the cached energy of the committed
    configuration and [temp_energy] the energy of the last candidate.
    Energies are contact counts, kept as unbounded integers. *)
Module AminoAcidChain.
Record t : Type := mk {
  N : nat;
  h : list nat;
  x : list Z;
  y : list Z;
  temp_x : list Z;
  temp_y : list Z;
  prev_energy : Z;
  temp_energy : Z
}.

(** [aa.temp_energy = e] *)
Definition set_temp_energy (e : Z) (a : t) : t :=
  mk (N a) (h a) (x a) (y a) (temp_x a) (temp_y a) (prev_energy a) e.

(** The three assignments of the accepting branch:
    [aa.x = np.array(aa.temp_x); aa.y = np.array(aa.temp_y);
     aa.prev_energy = aa.temp_energy].
    [np.array] copies, so the committed arrays do not alias the candidate
    arrays and plain values model them. *)
Definition commit (a : t) : t :=
  mk (N a) (h a) (temp_x a) (temp_y a) (temp_x a) (temp_y a) (temp_energy a) (temp_energy a).

(** [move()] leaves its candidate in [temp_x], [temp_y]. *)
Definition set_candidate (cx cy : list Z) (a : t) : t :=
  mk (N a) (h a) (x a) (y a) cx cy (prev_energy a) (temp_energy a).
End AminoAcidChain.

(** What the loop does to the outside world, in program order: the calls
    into the absent class, the two [print]s, the plot and the stores into
    [energy_change]. *)
Inductive Event : Type :=
| EMove (success : bool)
| EMeasure (e : Z)
| EPrintUpdate (step : nat) (old_energy new_energy : Z)
| EPlot
| EStore (i : nat) (v : Z)
| EPrintLowest (e : Z).

(** Result of running code that may raise or loop. *)
Inductive Outcome (A : Type) : Type :=
| Returned (a : A)
| IndexError
| OutOfFuel.
Arguments Returned {A} a.
Arguments IndexError {A}.
Arguments OutOfFuel {A}.

(** [arr[i] = v] on a numpy array: an index past the end raises
    [IndexError] (the index here is never negative). *)
Definition setitem (arr : list Z) (i : nat) (v : Z) : option (list Z) :=
  if decide (i < length arr)%nat then Some (<[i := v]> arr) else None.

(** ** The energy function, from the specification *)

Module Energy.

(** Residue [i] is hydrophobic when its index is listed in [h]. *)
Definition hydrophobic (a : AminoAcidChain.t) (i : nat) : bool :=
  bool_decide (i ∈ AminoAcidChain.h a).

Definition position (xs ys : list Z) (i : nat) : option (Z * Z) :=
  match xs !! i, ys !! i with
  | Some px, Some py => Some (px, py)
  | _, _ => None
  end.

(** The four lattice-adjacent cells: up, down, left, right. *)
Definition adjacent_cells (p : Z * Z) : list (Z * Z) :=
  let '(px, py) := p in [(px, py + 1); (px, py - 1); (px - 1, py); (px + 1, py)].

(** Cell [c] is occupied by an H residue other than [i]. *)
Definition other_H_at (a : AminoAcidChain.t) (xs ys : list Z) (i : nat) (c : Z * Z) : bool :=
  existsb
    (fun j => negb (Nat.eqb j i) && hydrophobic a j
              && bool_decide (position xs ys j = Some c))
    (seq 0 (AminoAcidChain.N a)).

(** Unfavourable neighbours of residue [i]: adjacent cells holding a P
    residue or water, that is, every adjacent cell not holding another H. *)
Definition unfavourable (a : AminoAcidChain.t) (xs ys : list Z) (i : nat) : Z :=
  match position xs ys i with
  | Some p =>
      Z.of_nat (length (List.filter (fun c => negb (other_H_at a xs ys i c)) (adjacent_cells p)))
  | None => 0
  end.

(** Modelled from the spec: [AminoAcidChain.measure_energy] is defined in
    [proteinfolding_classes], which is not among the sources.  Section 4.1 of
    the specification: for every hydrophobic residue examine its four
    adjacent cells; a cell occupied by another H residue is favourable, a
    cell occupied by a P residue or unoccupied is unfavourable; the energy is
    the number of unfavourable cells summed over all H residues. *)
Definition measure_energy (a : AminoAcidChain.t) (xs ys : list Z) : Z :=
  foldr Z.add 0
    (map (fun i => if hydrophobic a i then unfavourable a xs ys i else 0)
         (seq 0 (AminoAcidChain.N a))).

End Energy.

(** ** Observations on the event log *)

Definition is_successful_move (e : Event) : bool :=
  match e with EMove true => true | _ => false end.

Definition is_measure (e : Event) : bool :=
  match e with EMeasure _ => true | _ => false end.

Definition is_update (e : Event) : bool :=
  match e with EPrintUpdate _ _ _ => true | _ => false end.

Definition store_index (e : Event) : option nat :=
  match e with EStore i _ => Some i | _ => None end.

(** Number of [move()] calls that returned [True]. *)
Definition successful_moves (evs : list Event) : nat :=
  length (List.filter is_successful_move evs).

(** Number of calls of [measure_energy]. *)
Definition evaluations (evs : list Event) : nat :=
  length (List.filter is_measure evs).

(** Number of times the accepting branch ran. *)
Definition updates (evs : list Event) : nat :=
  length (List.filter is_update evs).

(** The indices written into [energy_change], in program order. *)
Definition stored_indices (evs : list Event) : list nat :=
  omap store_index evs.

(** Smallest entry of a trace. *)
Definition list_min (l : list Z) : option Z :=
  match l with
  | [] => None
  | v :: l' => Some (foldr Z.min v l')
  end.

(** Further observations, for the parts of the cell after the loop. *)

Definition is_failed_move (e : Event) : bool :=
  match e with EMove false => true | _ => false end.

Definition is_plot (e : Event) : bool :=
  match e with EPlot => true | _ => false end.

(** Number of [move()] calls that returned [False]. *)
Definition failed_moves (evs : list Event) : nat :=
  length (List.filter is_failed_move evs).

(** Number of [plot_aa(aa)] calls. *)
Definition plots (evs : list Event) : nat :=
  length (List.filter is_plot evs).

(** An "Update" line reports a step within the budget and a new energy
    strictly below the old one; other events are not constrained. *)
Definition shows_improvement (budget : nat) (e : Event) : Prop :=
  match e with
  | EPrintUpdate s old_energy new_energy => (s < budget)%nat /\ new_energy < old_energy
  | _ => True
  end.

(** Python's built-in [max] over the entries of an array: it starts from
    the first entry and keeps the larger one; on an empty array it raises
    [ValueError] ([None]). *)
Definition py_max (l : list Z) : option Z :=
  match l with
  | [] => None
  | v :: l' => Some (fold_left Z.max l' v)
  end.

(** The argument of [plt.axis([0,len(energy_change), 0, max(energy_change)])],
    evaluated after the loop; [None] when [max] raises. *)
Definition axis_limits (ec : list Z) : option (list Z) :=
  match py_max ec with
  | Some top => Some [0; Z.of_nat (length ec); 0; top]
  | None => None
  end.

(** ** State of the notebook cell *)

(** Everything the loop touches: the object, the state of the random source
    behind [move()] (Python's global [random] state), the step counter, the
    [energy_change] array and the events emitted so far. *)
Record Machine (Rng : Type) : Type := mkMachine {
  aa : AminoAcidChain.t;
  rng : Rng;
  step : nat;
  energy_change : list Z;
  events : list Event
}.
Arguments mkMachine {Rng} aa rng step energy_change events.
Arguments aa {Rng} m.
Arguments rng {Rng} m.
Arguments step {Rng} m.
Arguments energy_change {Rng} m.
Arguments events {Rng} m.

(** ** Contracts of the absent [move()] *)

Section MoveContracts.
Context {Rng : Type}.
Variable move : AminoAcidChain.t -> Rng -> bool * AminoAcidChain.t * Rng.

(** Section 4.2 of the specification: a proposal, valid or not, leaves the
    committed configuration of the chain (its [x], [y] and cached energy)
    untouched. *)
Definition move_keeps_committed : Prop :=
  forall a g,
    AminoAcidChain.x (move a g).1.2 = AminoAcidChain.x a /\
    AminoAcidChain.y (move a g).1.2 = AminoAcidChain.y a /\
    AminoAcidChain.prev_energy (move a g).1.2 = AminoAcidChain.prev_energy a.

(** Retrying [move()] from chain [a] and random state [g] reaches a call
    that returns [True]. *)
Inductive eventually_succeeds : AminoAcidChain.t -> Rng -> Prop :=
| succeeds_now a g a' g' :
    move a g = (true, a', g') -> eventually_succeeds a g
| succeeds_later a g a' g' :
    move a g = (false, a', g') -> eventually_succeeds a' g' -> eventually_succeeds a g.

(** [move()] returns [False] on every call. *)
Definition never_succeeds : Prop :=
  forall a g, (move a g).1.1 = false.

(** [move()] never changes the length of the chain or which residues are
    hydrophobic. *)
Definition move_keeps_identity : Prop :=
  forall a g,
    AminoAcidChain.N (move a g).1.2 = AminoAcidChain.N a /\
    AminoAcidChain.h (move a g).1.2 = AminoAcidChain.h a.

(** [move()] returns [True] on every call. *)
Definition always_succeeds : Prop :=
  forall a g, (move a g).1.1 = true.

End MoveContracts.


(** [measure_energy] reads, besides the coordinate arrays it is given, only
    the length and the hydrophobic residues of the chain. *)
Definition energy_of_sequence
    (measure_energy : AminoAcidChain.t -> list Z -> list Z -> Z) : Prop :=
  forall a a' xs ys,
    AminoAcidChain.N a = AminoAcidChain.N a' ->
    AminoAcidChain.h a = AminoAcidChain.h a' ->
    measure_energy a xs ys = measure_energy a' xs ys.

(** ** A concrete instance: the six-residue chain H P P P P H *)

Module Demo.

(** A generator that replays a script: draw number [g] either fails or
    proposes the scripted coordinates. *)
Definition scripted (script : nat -> option (list Z * list Z))
    (a : AminoAcidChain.t) (g : nat) : bool * AminoAcidChain.t * nat :=
  match script g with
  | Some (cx, cy) => (true, AminoAcidChain.set_candidate cx cy a, S g)
  | None => (false, a, S g)
  end.

Definition straight_x : list Z := [0; 1; 2; 3; 4; 5].
Definition straight_y : list Z := [0; 0; 0; 0; 0; 0].
Definition folded_x : list Z := [0; 1; 2; 2; 1; 0].
Definition folded_y : list Z := [0; 0; 0; 1; 1; 1].

(** Even draws fail; draw 1 proposes the U shape, later odd draws the
    straight line. *)
Definition script (g : nat) : option (list Z * list Z) :=
  if Nat.even g then None
  else if Nat.eqb g 1 then Some (folded_x, folded_y)
  else Some (straight_x, straight_y).

Definition move : AminoAcidChain.t -> nat -> bool * AminoAcidChain.t * nat :=
  scripted script.

(** A generator that never finds a valid candidate. *)
Definition stuck_move (a : AminoAcidChain.t) (g : unit) : bool * AminoAcidChain.t * unit :=
  (false, a, g).

(** The straight chain, first and last residue hydrophobic, with its
    energy cached. *)
Definition chain : AminoAcidChain.t :=
  let a := AminoAcidChain.mk 6 [0; 5]%nat straight_x straight_y [] [] 0 0 in
  AminoAcidChain.mk 6 [0; 5]%nat straight_x straight_y [] []
    (Energy.measure_energy a straight_x straight_y) 0.

(** The same shape with no hydrophobic residue. *)
Definition polar_chain : AminoAcidChain.t :=
  AminoAcidChain.mk 6 [] straight_x straight_y [] [] 0 0.

(** The states a two-step run from draw 0 passes through. *)
Definition folded_chain : AminoAcidChain.t :=
  AminoAcidChain.mk 6 [0; 5]%nat folded_x folded_y folded_x folded_y 6 6.

Definition after_failure : Machine nat :=
  mkMachine chain 1%nat 0 [0; 0] [EMove false].

Definition before_reject : Machine nat :=
  mkMachine folded_chain 3%nat 1 [6; 0]
    [EMove false; EMove true; EMeasure 6; EPrintUpdate 0 8 6; EPlot; EStore 0 6;
     EMove false].

Definition finished : Machine nat :=
  mkMachine
    (AminoAcidChain.mk 6 [0; 5]%nat folded_x folded_y straight_x straight_y 6 8)
    4%nat 2 [6; 6]
    [EMove false; EMove true; EMeasure 6; EPrintUpdate 0 8 6; EPlot; EStore 0 6;
     EMove false; EMove true; EMeasure 8; EStore 1 6].


(** A generator whose every proposal is the U shape. *)
Definition eager_move : AminoAcidChain.t -> unit -> bool * AminoAcidChain.t * unit :=
  fun a g => (true, AminoAcidChain.set_candidate folded_x folded_y a, g).



End Demo.

(** ** The optimizer loop (cell 10) *)

Section Optimizer.

Context {Rng : Type}.

(** [aa.move()]: absent from the sources.  It returns [success] and, being
    a method, may update the object (it leaves the candidate in [temp_x],
    [temp_y]); it consumes the random state and hands back the next one. *)
Variable move : AminoAcidChain.t -> Rng -> bool * AminoAcidChain.t * Rng.

(** [aa.measure_energy(xs, ys)]: absent from the sources; the specification
    makes it a pure function of the chain and the coordinate arrays. *)
Variable measure_energy : AminoAcidChain.t -> list Z -> list Z -> Z.

Variable num_steps : nat.

(** [energy_change = np.zeros(num_steps); step = 0].  The array holds
    floats; every value stored is an integer energy, kept here as [Z]. *)
Definition initial (a : AminoAcidChain.t) (g : Rng) : Machine Rng :=
  mkMachine a g 0%nat (replicate num_steps 0) [].

(** [step < num_steps] *)
Definition guard (m : Machine Rng) : bool := bool_decide (step m < num_steps)%nat.

(** The [if (aa.temp_energy - aa.prev_energy < 0)] statement, with the
    events of the branch taken. *)
Definition decide_candidate (st : nat) (a : AminoAcidChain.t) : AminoAcidChain.t * list Event :=
  if AminoAcidChain.temp_energy a - AminoAcidChain.prev_energy a <? 0 then
    (AminoAcidChain.commit a,
     [EPrintUpdate st (AminoAcidChain.prev_energy a) (AminoAcidChain.temp_energy a); EPlot])
  else (a, []).

(** One execution of the loop body; [None] is an [IndexError] from the
    store into [energy_change]. *)
Definition loop_body (m : Machine Rng) : option (Machine Rng) :=
  let '(success, a1, g1) := move (aa m) (rng m) in
  if success then
    let e := measure_energy a1 (AminoAcidChain.temp_x a1) (AminoAcidChain.temp_y a1) in
    let a2 := AminoAcidChain.set_temp_energy e a1 in
    let '(a3, evs) := decide_candidate (step m) a2 in
    match setitem (energy_change m) (step m) (AminoAcidChain.prev_energy a3) with
    | Some ec =>
        Some (mkMachine a3 g1 (S (step m)) ec
                (events m ++ [EMove true; EMeasure e] ++ evs
                          ++ [EStore (step m) (AminoAcidChain.prev_energy a3)]))
    | None => None
    end
  else
    Some (mkMachine a1 g1 (step m) (energy_change m) (events m ++ [EMove false])).

(** [while step < num_steps: body], with fuel bounding the number of
    iterations. *)
Fixpoint while_loop (fuel : nat) (m : Machine Rng) : Outcome (Machine Rng) :=
  if guard m then
    match fuel with
    | O => OutOfFuel
    | S fuel' =>
        match loop_body m with
        | Some m' => while_loop fuel' m'
        | None => IndexError
        end
    end
  else Returned m.

(** The first [n] iterations of the loop, when it makes that many. *)
Fixpoint iterate (n : nat) (m : Machine Rng) : option (Machine Rng) :=
  match n with
  | O => Some m
  | S n' =>
      if guard m then
        match loop_body m with
        | Some m' => iterate n' m'
        | None => None
        end
      else None
  end.

(** The final [print("The lowest energy we could find is %d"%aa.prev_energy)]. *)
Definition report (m : Machine Rng) : Machine Rng :=
  mkMachine (aa m) (rng m) (step m) (energy_change m)
            (events m ++ [EPrintLowest (AminoAcidChain.prev_energy (aa m))]).

(** The whole cell, up to the final print. *)
Definition optimizer (fuel : nat) (a : AminoAcidChain.t) (g : Rng) : Outcome (Machine Rng) :=
  match while_loop fuel (initial a g) with
  | Returned m => Returned (report m)
  | IndexError => IndexError
  | OutOfFuel => OutOfFuel
  end.

(** One iteration of the loop as a step relation, and the states a run
    passes through. *)
Definition iteration (m m' : Machine Rng) : Prop :=
  guard m = true /\ loop_body m = Some m'.

Definition reachable (a : AminoAcidChain.t) (g : Rng) (m : Machine Rng) : Prop :=
  rtc iteration (initial a g) m.


(** The three ways one execution of the body can go. *)
Inductive body_case (m m' : Machine Rng) : Prop :=
| body_retry a1 g1 :
    move (aa m) (rng m) = (false, a1, g1) ->
    m' = mkMachine a1 g1 (step m) (energy_change m) (events m ++ [EMove false]) ->
    body_case m m'
| body_accept a1 g1 e :
    move (aa m) (rng m) = (true, a1, g1) ->
    e = measure_energy a1 (AminoAcidChain.temp_x a1) (AminoAcidChain.temp_y a1) ->
    e < AminoAcidChain.prev_energy a1 ->
    (step m < length (energy_change m))%nat ->
    m' = mkMachine (AminoAcidChain.commit (AminoAcidChain.set_temp_energy e a1)) g1
           (S (step m)) (<[step m := e]> (energy_change m))
           (events m ++ [EMove true; EMeasure e;
                         EPrintUpdate (step m) (AminoAcidChain.prev_energy a1) e; EPlot;
                         EStore (step m) e]) ->
    body_case m m'
| body_reject a1 g1 e :
    move (aa m) (rng m) = (true, a1, g1) ->
    e = measure_energy a1 (AminoAcidChain.temp_x a1) (AminoAcidChain.temp_y a1) ->
    AminoAcidChain.prev_energy a1 <= e ->
    (step m < length (energy_change m))%nat ->
    m' = mkMachine (AminoAcidChain.set_temp_energy e a1) g1
           (S (step m)) (<[step m := AminoAcidChain.prev_energy a1]> (energy_change m))
           (events m ++ [EMove true; EMeasure e;
                         EStore (step m) (AminoAcidChain.prev_energy a1)]) ->
    body_case m m'.

(** Bookkeeping kept by the loop: the array keeps its length, the counter
    stays within the budget, and the stores and the successful proposals so
    far are exactly one per completed step. *)
Definition bookkeeping (m : Machine Rng) : Prop :=
  length (energy_change m) = num_steps /\
  (step m <= num_steps)%nat /\
  stored_indices (events m) = seq 0 (step m) /\
  successful_moves (events m) = step m /\
  evaluations (events m) = step m.

(** The recorded part of [energy_change] (indices below [step]) never
    goes up, stays at or above the cached energy, and ends in it. *)
Definition descending (m : Machine Rng) : Prop :=
  (forall k, (k < step m)%nat ->
     exists v, energy_change m !! k = Some v /\ AminoAcidChain.prev_energy (aa m) <= v) /\
  (forall k, (S k < step m)%nat ->
     exists v w, energy_change m !! k = Some v /\ energy_change m !! S k = Some w /\ w <= v) /\
  (forall k, step m = S k ->
     energy_change m !! k = Some (AminoAcidChain.prev_energy (aa m))).

(** ** Properties of the loop *)

Lemma guard_true (m : Machine Rng) : guard m = true <-> (step m < num_steps)%nat.
Proof. unfold guard. apply bool_decide_eq_true. Qed.

Lemma guard_false (m : Machine Rng) : guard m = false <-> (num_steps <= step m)%nat.
Proof. unfold guard. rewrite bool_decide_eq_false. lia. Qed.

Lemma setitem_Some (arr : list Z) (i : nat) (v : Z) (arr' : list Z) :
  setitem arr i v = Some arr' <-> (i < length arr)%nat /\ arr' = <[i := v]> arr.
Proof.
  unfold setitem. destruct (decide (i < length arr)%nat); split.
  - intros [= <-]. auto.
  - intros [_ ->]. reflexivity.
  - discriminate.
  - intros [? _]. lia.
Qed.

Lemma loop_body_cases (m m' : Machine Rng) :
  loop_body m = Some m' -> body_case m m'.
Proof.
  unfold loop_body.
  destruct (move (aa m) (rng m)) as [[[] a1] g1] eqn:Hmove.
  - unfold decide_candidate. cbn [AminoAcidChain.set_temp_energy
      AminoAcidChain.temp_energy AminoAcidChain.prev_energy].
    destruct (Z.ltb_spec
      (measure_energy a1 (AminoAcidChain.temp_x a1) (AminoAcidChain.temp_y a1)
       - AminoAcidChain.prev_energy a1) 0) as [Hlt | Hge].
    + destruct (setitem _ _ _) as [ec |] eqn:Hset; [| discriminate].
      apply setitem_Some in Hset as [Hlen ->]. intros [= <-].
      eapply body_accept; eauto. lia.
    + destruct (setitem _ _ _) as [ec |] eqn:Hset; [| discriminate].
      apply setitem_Some in Hset as [Hlen ->]. intros [= <-].
      eapply body_reject; eauto. lia.
  - intros [= <-]. eapply body_retry; eauto.
Qed.

(** The body raises only when the store is out of bounds. *)
Lemma loop_body_defined (m : Machine Rng) :
  (step m < length (energy_change m))%nat -> exists m', loop_body m = Some m'.
Proof.
  intros Hlen. unfold loop_body.
  destruct (move (aa m) (rng m)) as [[[] a1] g1]; [| eauto].
  destruct (decide_candidate _ _) as [a3 evs].
  unfold setitem. destruct (decide _); [eauto | lia].
Qed.


Lemma successful_moves_app (l l' : list Event) :
  successful_moves (l ++ l') = (successful_moves l + successful_moves l')%nat.
Proof. unfold successful_moves. rewrite List.filter_app, length_app. reflexivity. Qed.

Lemma evaluations_app (l l' : list Event) :
  evaluations (l ++ l') = (evaluations l + evaluations l')%nat.
Proof. unfold evaluations. rewrite List.filter_app, length_app. reflexivity. Qed.

Lemma updates_app (l l' : list Event) :
  updates (l ++ l') = (updates l + updates l')%nat.
Proof. unfold updates. rewrite List.filter_app, length_app. reflexivity. Qed.

Lemma stored_indices_app (l l' : list Event) :
  stored_indices (l ++ l') = stored_indices l ++ stored_indices l'.
Proof. apply omap_app. Qed.

Lemma seq_snoc (n : nat) : seq 0 (S n) = seq 0 n ++ [n].
Proof. rewrite seq_S. reflexivity. Qed.

Lemma bookkeeping_initial (a : AminoAcidChain.t) (g : Rng) : bookkeeping (initial a g).
Proof.
  unfold bookkeeping, initial; simpl. rewrite length_replicate.
  repeat split; lia.
Qed.

Lemma reachable_ind (P : Machine Rng -> Prop) (a : AminoAcidChain.t) (g : Rng) :
  P (initial a g) ->
  (forall m m', reachable a g m -> iteration m m' -> P m -> P m') ->
  forall m, reachable a g m -> P m.
Proof. intros Hinit Hstep m Hrun. eapply rtc_ind_r; eauto. Qed.

Lemma bookkeeping_iteration (m m' : Machine Rng) :
  bookkeeping m -> iteration m m' -> bookkeeping m'.
Proof.
  intros (Hlen & Hle & Hst & Hsucc & Hev) [Hg Hbody].
  apply guard_true in Hg.
  destruct (loop_body_cases _ _ Hbody) as [a1 g1 _ -> | a1 g1 e _ _ _ _ -> | a1 g1 e _ _ _ _ ->];
    unfold bookkeeping; simpl;
    rewrite ?length_insert, stored_indices_app, successful_moves_app, evaluations_app,
      Hst, Hsucc, Hev; simpl;
    rewrite ?seq_snoc, ?app_nil_r.
  all: repeat split; auto; try lia.
  all: first [ exact (eq_sym (seq_snoc _))
             | unfold successful_moves, evaluations; simpl; lia ].
Qed.

Lemma bookkeeping_reachable (a : AminoAcidChain.t) (g : Rng) (m : Machine Rng) :
  reachable a g m -> bookkeeping m.
Proof.
  apply reachable_ind.
  - apply bookkeeping_initial.
  - intros m1 m2 _ Hstep IH. eapply bookkeeping_iteration; eauto.
Qed.

(** What [move_keeps_committed] says about one call. *)
Lemma move_frame (a a1 : AminoAcidChain.t) (g g1 : Rng) (b : bool) :
  move_keeps_committed move ->
  move a g = (b, a1, g1) ->
  AminoAcidChain.x a1 = AminoAcidChain.x a /\
  AminoAcidChain.y a1 = AminoAcidChain.y a /\
  AminoAcidChain.prev_energy a1 = AminoAcidChain.prev_energy a.
Proof. intros Hframe Hmove. specialize (Hframe a g). rewrite Hmove in Hframe. exact Hframe. Qed.

Lemma descending_initial (a : AminoAcidChain.t) (g : Rng) : descending (initial a g).
Proof.
  unfold descending, initial; simpl. repeat split; intros; lia || discriminate.
Qed.

Lemma descending_iteration (m m' : Machine Rng) :
  move_keeps_committed move ->
  descending m -> iteration m m' -> descending m'.
Proof.
  intros Hframe (Hlow & Hmono & Hlast) [Hg Hbody].
  destruct (loop_body_cases _ _ Hbody)
    as [a1 g1 Hmove -> | a1 g1 e Hmove _ Hlt Hlen -> | a1 g1 e Hmove _ Hge Hlen ->];
    destruct (move_frame _ _ _ _ _ Hframe Hmove) as (_ & _ & Hprev);
    unfold descending; cbn [aa step energy_change AminoAcidChain.commit
      AminoAcidChain.set_temp_energy AminoAcidChain.prev_energy AminoAcidChain.temp_energy].
  - rewrite Hprev. auto.
  - split; [| split].
    + intros k Hk. destruct (decide (k = step m)) as [-> | Hne].
      * exists e. rewrite list_lookup_insert_eq by lia. split; [reflexivity | lia].
      * rewrite list_lookup_insert_ne by lia.
        destruct (Hlow k) as (v & Hv & Hle); [lia |]. exists v. split; [exact Hv | lia].
    + intros k Hk. destruct (decide (S k = step m)) as [Heq | Hne].
      * destruct (Hlow k) as (v & Hv & Hle); [lia |].
        exists v, e. rewrite list_lookup_insert_ne by lia. rewrite Heq.
        rewrite list_lookup_insert_eq by lia. repeat split; auto. lia.
      * rewrite !list_lookup_insert_ne by lia. apply Hmono. lia.
    + intros k [= <-]. apply list_lookup_insert_eq. lia.
  - split; [| split].
    + intros k Hk. destruct (decide (k = step m)) as [-> | Hne].
      * exists (AminoAcidChain.prev_energy a1).
        rewrite list_lookup_insert_eq by lia. split; [reflexivity | lia].
      * rewrite list_lookup_insert_ne by lia.
        destruct (Hlow k) as (v & Hv & Hle); [lia |]. exists v. split; [exact Hv | lia].
    + intros k Hk. destruct (decide (S k = step m)) as [Heq | Hne].
      * destruct (Hlow k) as (v & Hv & Hle); [lia |].
        exists v, (AminoAcidChain.prev_energy a1).
        rewrite list_lookup_insert_ne by lia. rewrite Heq.
        rewrite list_lookup_insert_eq by lia. repeat split; auto. lia.
      * rewrite !list_lookup_insert_ne by lia. apply Hmono. lia.
    + intros k [= <-]. apply list_lookup_insert_eq. lia.
Qed.

Lemma descending_reachable (a : AminoAcidChain.t) (g : Rng) (m : Machine Rng) :
  move_keeps_committed move ->
  reachable a g m -> descending m.
Proof.
  intros Hframe. apply reachable_ind.
  - apply descending_initial.
  - intros m1 m2 _ Hstep IH. eapply descending_iteration; eauto.
Qed.

(** A run that returns has passed through iterations of the body only and
    stops with the guard false. *)
Lemma while_loop_returned (fuel : nat) (m m' : Machine Rng) :
  while_loop fuel m = Returned m' -> rtc iteration m m' /\ guard m' = false.
Proof.
  revert m. induction fuel as [| fuel IH]; intros m; simpl;
    destruct (guard m) eqn:Hg; try discriminate.
  - intros [= <-]. split; [apply rtc_refl | exact Hg].
  - destruct (loop_body m) as [m1 |] eqn:Hbody; [| discriminate].
    intros Hrun. destruct (IH _ Hrun) as [Hrtc Hstop].
    split; [| exact Hstop]. eapply rtc_l; [| exact Hrtc]. split; assumption.
  - intros [= <-]. split; [apply rtc_refl | exact Hg].
Qed.

(** More fuel does not change a result already obtained. *)
Lemma while_loop_more_fuel (fuel fuel' : nat) (m m' : Machine Rng) :
  while_loop fuel m = Returned m' -> (fuel <= fuel')%nat -> while_loop fuel' m = Returned m'.
Proof.
  revert fuel' m. induction fuel as [| fuel IH]; intros fuel' m; simpl.
  - destruct (guard m) eqn:Hg; [discriminate |]. intros Hret _.
    destruct fuel'; simpl; rewrite Hg; exact Hret.
  - destruct (guard m) eqn:Hg.
    + destruct (loop_body m) as [m1 |] eqn:Hbody; [| discriminate].
      intros Hret Hle. destruct fuel' as [| fuel']; [lia |].
      simpl. rewrite Hg, Hbody. apply IH; [exact Hret | lia].
    + intros Hret _. destruct fuel'; simpl; rewrite Hg; exact Hret.
Qed.

Lemma while_loop_no_index_error (fuel : nat) (m : Machine Rng) :
  bookkeeping m -> while_loop fuel m <> IndexError.
Proof.
  revert m. induction fuel as [| fuel IH]; intros m Hbk; simpl;
    destruct (guard m) eqn:Hg; try discriminate.
  destruct (loop_body_defined m) as [m1 Hbody].
  - apply guard_true in Hg. destruct Hbk as (-> & _). exact Hg.
  - rewrite Hbody. apply IH. eapply bookkeeping_iteration; [exact Hbk | split; assumption].
Qed.

(** Once the budget is used up the loop returns at once. *)
Lemma while_loop_done (fuel : nat) (m : Machine Rng) :
  guard m = false -> while_loop fuel m = Returned m.
Proof. intros Hg. destruct fuel; simpl; rewrite Hg; reflexivity. Qed.

Lemma while_loop_unfold (fuel : nat) (m m1 : Machine Rng) :
  guard m = true -> loop_body m = Some m1 ->
  while_loop (S fuel) m = while_loop fuel m1.
Proof. intros Hg Hbody. simpl. rewrite Hg, Hbody. reflexivity. Qed.

(** With [n] steps of budget left and a generator that keeps finding
    valid candidates, some amount of fuel lets the loop return. *)
Lemma while_loop_terminates (n : nat) :
  forall m : Machine Rng,
    bookkeeping m ->
    (num_steps - step m)%nat = n ->
    (forall m', rtc iteration m m' -> eventually_succeeds move (aa m') (rng m')) ->
    exists fuel m', while_loop fuel m = Returned m'.
Proof.
  induction n as [| n IHn]; intros m Hbk Hleft Hlive.
  - exists 0%nat, m. apply while_loop_done, guard_false. lia.
  - pose proof (Hlive m (rtc_refl _ _)) as Hev.
    remember (aa m) as a eqn:Ha. remember (rng m) as g eqn:Hg.
    revert m Ha Hg Hbk Hleft Hlive.
    induction Hev as [a g a' g' Hmove | a g a' g' Hmove _ IHev];
      intros m -> -> Hbk Hleft Hlive.
    + assert (Hguard : guard m = true) by (apply guard_true; lia).
      destruct (loop_body_defined m) as [m1 Hbody].
      { destruct Hbk as (-> & _). lia. }
      assert (Hit : iteration m m1) by (split; assumption).
      assert (Hstep : step m1 = S (step m)).
      { destruct (loop_body_cases _ _ Hbody) as [? ? Hm ? | ? ? ? _ _ _ _ -> | ? ? ? _ _ _ _ ->];
          [congruence | reflexivity | reflexivity]. }
      destruct (IHn m1) as (fuel & m' & Hrun).
      * eapply bookkeeping_iteration; eauto.
      * lia.
      * intros m' Hm'. apply Hlive. eapply rtc_l; eauto.
      * exists (S fuel), m'. rewrite (while_loop_unfold _ _ _ Hguard Hbody). exact Hrun.
    + assert (Hguard : guard m = true) by (apply guard_true; lia).
      destruct (loop_body_defined m) as [m1 Hbody].
      { destruct Hbk as (-> & _). lia. }
      assert (Hit : iteration m m1) by (split; assumption).
      assert (Hm1 : aa m1 = a' /\ rng m1 = g' /\ step m1 = step m).
      { destruct (loop_body_cases _ _ Hbody) as [? ? Hm -> | ? ? ? Hm _ _ _ _ | ? ? ? Hm _ _ _ _];
          [| congruence | congruence].
        rewrite Hmove in Hm. injection Hm as <- <-. auto. }
      destruct Hm1 as (Ha1 & Hg1 & Hs1).
      destruct (IHev m1) as (fuel & m' & Hrun); auto.
      * eapply bookkeeping_iteration; eauto.
      * lia.
      * intros m' Hm'. apply Hlive. eapply rtc_l; eauto.
      * exists (S fuel), m'. rewrite (while_loop_unfold _ _ _ Hguard Hbody). exact Hrun.
Qed.

(** The smallest entry is an entry and is below every entry. *)
Lemma foldr_min_le (v : Z) (l : list Z) :
  foldr Z.min v l <= v /\ Forall (fun w => foldr Z.min v l <= w) l.
Proof.
  induction l as [| w l [IHv IHl]]; simpl.
  - split; [lia | constructor].
  - split; [lia |]. constructor; [lia |].
    eapply Forall_impl; [exact IHl |]. simpl. intros; lia.
Qed.

Lemma foldr_min_elem (v : Z) (l : list Z) : foldr Z.min v l ∈ v :: l.
Proof.
  induction l as [| w l IH]; simpl.
  - apply list_elem_of_here.
  - destruct (Z.min_spec w (foldr Z.min v l)) as [[_ ->] | [_ ->]].
    + apply list_elem_of_further, list_elem_of_here.
    + apply elem_of_cons in IH as [-> | IH].
      * apply list_elem_of_here.
      * do 2 apply list_elem_of_further. exact IH.
Qed.

Lemma list_min_lower_bound (l : list Z) (p : Z) :
  p ∈ l -> (forall v, v ∈ l -> p <= v) -> list_min l = Some p.
Proof.
  destruct l as [| v l]; [intros H; inversion H |].
  intros Hin Hlow. simpl. f_equal.
  destruct (foldr_min_le v l) as [Hv Hl].
  pose proof (foldr_min_elem v l) as Hmem.
  specialize (Hlow _ Hmem).
  apply elem_of_cons in Hin as [-> | Hin]; [lia |].
  rewrite Forall_forall in Hl. specialize (Hl _ Hin). lia.
Qed.

Lemma iterate_reachable (n : nat) (a : AminoAcidChain.t) (g : Rng) (m : Machine Rng) :
  iterate n (initial a g) = Some m -> reachable a g m.
Proof.
  unfold reachable. generalize (initial a g) as m0. 
  induction n as [| n IH]; intros m0; simpl.
  - intros [= <-]. apply rtc_refl.
  - destruct (guard m0) eqn:Hg; [| discriminate].
    destruct (loop_body m0) as [m1 |] eqn:Hbody; [| discriminate].
    intros Hit. eapply rtc_l; [split; eassumption | apply IH, Hit].
Qed.

(** A failed proposal changes neither the counter nor the guard, so a
    generator that always fails keeps the loop running. *)
Lemma while_loop_stuck (fuel : nat) (m : Machine Rng) :
  never_succeeds move -> guard m = true -> while_loop fuel m = OutOfFuel.
Proof.
  intros Hnever. revert m. induction fuel as [| fuel IH]; intros m Hg; simpl; rewrite Hg.
  - reflexivity.
  - unfold loop_body. specialize (Hnever (aa m) (rng m)).
    destruct (move (aa m) (rng m)) as [[b a1] g1]. simpl in Hnever. subst b.
    apply IH. exact Hg.
Qed.

(** ** The claims about the loop *)

(** C1: in an iteration of a run in which [move()] produced a valid
    candidate, the accepting branch runs (one more "Update" is printed, and
    the candidate's coordinates and energy become the chain's [x], [y] and
    [prev_energy]) if and only if the candidate's energy is strictly below
    the cached energy; with an equal or greater energy nothing is committed.
    When [move()] keeps the committed state, the cached energy compared
    against is the one from before the iteration. *)
Theorem C1_commit_iff_strictly_lower
    (a0 : AminoAcidChain.t) (g0 : Rng) (m : Machine Rng) (a1 : AminoAcidChain.t) (g1 : Rng) :
  reachable a0 g0 m ->
  guard m = true ->
  move (aa m) (rng m) = (true, a1, g1) ->
  let e := measure_energy a1 (AminoAcidChain.temp_x a1) (AminoAcidChain.temp_y a1) in
  exists m',
    loop_body m = Some m' /\
    (updates (events m') = S (updates (events m)) <-> e < AminoAcidChain.prev_energy a1) /\
    (e < AminoAcidChain.prev_energy a1 ->
       AminoAcidChain.x (aa m') = AminoAcidChain.temp_x a1 /\
       AminoAcidChain.y (aa m') = AminoAcidChain.temp_y a1 /\
       AminoAcidChain.prev_energy (aa m') = e) /\
    (AminoAcidChain.prev_energy a1 <= e ->
       updates (events m') = updates (events m) /\
       AminoAcidChain.x (aa m') = AminoAcidChain.x a1 /\
       AminoAcidChain.y (aa m') = AminoAcidChain.y a1 /\
       AminoAcidChain.prev_energy (aa m') = AminoAcidChain.prev_energy a1) /\
    (move_keeps_committed move ->
       AminoAcidChain.prev_energy a1 = AminoAcidChain.prev_energy (aa m)).
Proof.
  intros Hrun Hg Hmove e.
  pose proof (bookkeeping_reachable _ _ _ Hrun) as (Hlen & _).
  destruct (loop_body_defined m) as [m' Hbody].
  { rewrite Hlen. apply guard_true, Hg. }
  exists m'. split; [exact Hbody |].
  assert (Hframe : move_keeps_committed move ->
            AminoAcidChain.prev_energy a1 = AminoAcidChain.prev_energy (aa m)).
  { intros Hk. eapply move_frame; eauto. }
  destruct (loop_body_cases _ _ Hbody)
    as [b1 h1 Hm _ | b1 h1 e' Hm He Hlt _ -> | b1 h1 e' Hm He Hge _ ->];
    rewrite Hmove in Hm; [discriminate | |];
    injection Hm as <- <-; subst e'; fold e in Hlt || fold e in Hge;
    cbn [aa events]; rewrite updates_app; unfold updates at 2 4; cbn.
  - repeat split; intros; auto; lia.
  - repeat split; intros; auto; lia.
Qed.

(** C2: in every state a run passes through, the energies recorded in
    [energy_change] for completed steps never go up from one step to the
    next (given that [move()] leaves the committed state alone). *)
Theorem C2_energy_change_nonincreasing
    (a0 : AminoAcidChain.t) (g0 : Rng) (m : Machine Rng) (k : nat) :
  move_keeps_committed move ->
  reachable a0 g0 m ->
  (S k < step m)%nat ->
  exists v w,
    energy_change m !! k = Some v /\ energy_change m !! S k = Some w /\ w <= v.
Proof.
  intros Hframe Hrun Hk.
  destruct (descending_reachable _ _ _ Hframe Hrun) as (_ & Hmono & _).
  apply Hmono, Hk.
Qed.

(** C3: the step counter always equals the number of [move()] calls that
    returned a valid candidate; an iteration whose proposal succeeds adds
    exactly one to it (and evaluates the energy once), an iteration whose
    proposal fails leaves the counter and [energy_change] as they were and
    does nothing but the failed call. *)
Theorem C3_step_counts_valid_candidates
    (a0 : AminoAcidChain.t) (g0 : Rng) (m : Machine Rng) :
  reachable a0 g0 m ->
  step m = successful_moves (events m) /\
  (guard m = true ->
   exists m',
     loop_body m = Some m' /\
     ((move (aa m) (rng m)).1.1 = true ->
        step m' = S (step m) /\
        evaluations (events m') = S (evaluations (events m))) /\
     ((move (aa m) (rng m)).1.1 = false ->
        step m' = step m /\
        energy_change m' = energy_change m /\
        events m' = events m ++ [EMove false])).
Proof.
  intros Hrun.
  pose proof (bookkeeping_reachable _ _ _ Hrun) as (Hlen & _ & _ & Hsucc & _).
  split; [symmetry; exact Hsucc |].
  intros Hg. destruct (loop_body_defined m) as [m' Hbody].
  { rewrite Hlen. apply guard_true, Hg. }
  exists m'. split; [exact Hbody |].
  destruct (loop_body_cases _ _ Hbody)
    as [a1 g1 Hm -> | a1 g1 e Hm _ _ _ -> | a1 g1 e Hm _ _ _ ->];
    rewrite Hm; cbn [fst snd step energy_change events];
    rewrite ?evaluations_app; unfold evaluations at 2; cbn.
  - split; [discriminate | auto].
  - split; [intros _; split; [reflexivity | lia] | discriminate].
  - split; [intros _; split; [reflexivity | lia] | discriminate].
Qed.

(** C4: if from every state of the run retrying [move()] eventually yields
    a valid candidate, the cell terminates: with enough fuel it returns, the
    counter equals [num_steps], exactly [num_steps] valid candidates were
    produced and evaluated, and the energy printed last is the cached energy
    of the chain the run ends with. *)
Theorem C4_terminates_after_num_steps_evaluations
    (a : AminoAcidChain.t) (g : Rng) :
  (forall m, reachable a g m -> eventually_succeeds move (aa m) (rng m)) ->
  exists fuel0 m,
    (forall fuel, (fuel0 <= fuel)%nat -> optimizer fuel a g = Returned (report m)) /\
    reachable a g m /\
    step m = num_steps /\
    successful_moves (events m) = num_steps /\
    evaluations (events m) = num_steps /\
    aa (report m) = aa m /\
    last (events (report m)) = Some (EPrintLowest (AminoAcidChain.prev_energy (aa m))).
Proof.
  intros Hlive.
  destruct (while_loop_terminates (num_steps - 0) (initial a g)) as (fuel0 & m & Hret).
  - apply bookkeeping_initial.
  - reflexivity.
  - exact Hlive.
  - destruct (while_loop_returned _ _ _ Hret) as [Hrun Hstop].
    pose proof (bookkeeping_reachable _ _ _ Hrun) as (_ & Hle & _ & Hsucc & Hev).
    apply guard_false in Hstop.
    assert (Hstep : step m = num_steps) by lia.
    exists fuel0, m. repeat split; try congruence.
    + intros fuel Hfuel. unfold optimizer.
      rewrite (while_loop_more_fuel _ _ _ _ Hret Hfuel). reflexivity.
    + exact Hrun.
    + cbn [report events]. apply last_snoc.
Qed.

(** C5: when a valid candidate is rejected (its energy is not strictly
    below the cached energy), the iteration leaves the chain's [x], [y] and
    cached energy exactly as they were before it (given that [move()] leaves
    the committed state alone). *)
Theorem C5_rejected_candidate_leaves_chain
    (a0 : AminoAcidChain.t) (g0 : Rng) (m : Machine Rng) (a1 : AminoAcidChain.t) (g1 : Rng) :
  move_keeps_committed move ->
  reachable a0 g0 m ->
  guard m = true ->
  move (aa m) (rng m) = (true, a1, g1) ->
  ~ measure_energy a1 (AminoAcidChain.temp_x a1) (AminoAcidChain.temp_y a1)
      < AminoAcidChain.prev_energy (aa m) ->
  exists m',
    loop_body m = Some m' /\
    AminoAcidChain.x (aa m') = AminoAcidChain.x (aa m) /\
    AminoAcidChain.y (aa m') = AminoAcidChain.y (aa m) /\
    AminoAcidChain.prev_energy (aa m') = AminoAcidChain.prev_energy (aa m).
Proof.
  intros Hframe Hrun Hg Hmove Hnot.
  pose proof (bookkeeping_reachable _ _ _ Hrun) as (Hlen & _).
  destruct (loop_body_defined m) as [m' Hbody].
  { rewrite Hlen. apply guard_true, Hg. }
  exists m'. split; [exact Hbody |].
  destruct (move_frame _ _ _ _ _ Hframe Hmove) as (Hx & Hy & Hprev).
  destruct (loop_body_cases _ _ Hbody)
    as [b1 h1 Hm _ | b1 h1 e Hm He Hlt _ -> | b1 h1 e Hm He Hge _ ->];
    rewrite Hmove in Hm; [discriminate | |]; injection Hm as <- <-.
  - subst e. lia.
  - cbn. auto.
Qed.

(** C6, as the code has it: the loop has no cap on failed proposals.  When
    [move()] never returns a valid candidate and the budget is at least one
    step, the cell never returns, whatever the fuel: it neither completes nor
    raises, and every state it passes through still has the counter at 0. *)
Theorem C6_failed_proposals_retry_forever
    (a : AminoAcidChain.t) (g : Rng) :
  never_succeeds move ->
  (1 <= num_steps)%nat ->
  (forall fuel, optimizer fuel a g = OutOfFuel) /\
  (forall m, reachable a g m ->
     step m = 0%nat /\ guard m = true /\ successful_moves (events m) = 0%nat).
Proof.
  intros Hnever Hpos. split.
  - intros fuel. unfold optimizer. rewrite while_loop_stuck; auto.
    apply guard_true. simpl. lia.
  - intros m Hrun.
    assert (Hstay : step m = 0%nat).
    { revert m Hrun. apply reachable_ind; [reflexivity |].
      intros m m' _ [_ Hbody] IH.
      destruct (loop_body_cases _ _ Hbody)
        as [a1 g1 Hm -> | a1 g1 e Hm _ _ _ _ | a1 g1 e Hm _ _ _ _];
        [exact IH | |];
        specialize (Hnever (aa m) (rng m)); rewrite Hm in Hnever; discriminate. }
    destruct (bookkeeping_reachable _ _ _ Hrun) as (_ & _ & _ & Hsucc & _).
    repeat split; [exact Hstay | apply guard_true; lia | congruence].
Qed.

(** C9: when the cell returns from a budget of at least one step, the
    energy it prints last, the chain's cached energy, the last entry of
    [energy_change] and the smallest entry of [energy_change] are all the
    same number (given that [move()] leaves the committed state alone). *)
Theorem C9_final_energy_is_last_and_min
    (fuel : nat) (a : AminoAcidChain.t) (g : Rng) (m : Machine Rng) :
  move_keeps_committed move ->
  (1 <= num_steps)%nat ->
  optimizer fuel a g = Returned m ->
  last (events m) = Some (EPrintLowest (AminoAcidChain.prev_energy (aa m))) /\
  last (energy_change m) = Some (AminoAcidChain.prev_energy (aa m)) /\
  list_min (energy_change m) = Some (AminoAcidChain.prev_energy (aa m)).
Proof.
  intros Hframe Hpos. unfold optimizer.
  destruct (while_loop fuel (initial a g)) as [m1 | |] eqn:Hret; try discriminate.
  intros [= <-]. cbn [report aa events energy_change].
  destruct (while_loop_returned _ _ _ Hret) as [Hrun Hstop].
  apply guard_false in Hstop.
  pose proof (bookkeeping_reachable _ _ _ Hrun) as (Hlen & Hle & _).
  destruct (descending_reachable _ _ _ Hframe Hrun) as (Hlow & _ & Hlast).
  assert (Hstep : step m1 = S (pred num_steps)) by lia.
  specialize (Hlast _ Hstep).
  split; [apply last_snoc |].
  split.
  - rewrite last_lookup, Hlen. exact Hlast.
  - apply list_min_lower_bound.
    + eapply list_elem_of_lookup_2; exact Hlast.
    + intros v Hv. apply list_elem_of_lookup_1 in Hv as [k Hk].
      destruct (Hlow k) as (v' & Hv' & Hle').
      * apply lookup_lt_Some in Hk. lia.
      * congruence.
Qed.

(** C10: the loop never raises [IndexError]; in every state of a run the
    counter is at most [num_steps], the array keeps its length [num_steps],
    and the indices stored into so far are [0, 1, ..., step-1], each below
    [num_steps] and each once; a run that returns has stored into every
    index exactly once. *)
Theorem C10_stores_in_bounds (a : AminoAcidChain.t) (g : Rng) :
  (forall fuel, while_loop fuel (initial a g) <> IndexError) /\
  (forall m, reachable a g m ->
     (step m <= num_steps)%nat /\
     length (energy_change m) = num_steps /\
     stored_indices (events m) = seq 0 (step m) /\
     Forall (fun i => (i < num_steps)%nat) (stored_indices (events m)) /\
     NoDup (stored_indices (events m)) /\
     (guard m = true -> exists m', loop_body m = Some m')) /\
  (forall fuel m, while_loop fuel (initial a g) = Returned m ->
     step m = num_steps /\ stored_indices (events m) = seq 0 num_steps).
Proof.
  split; [| split].
  - intros fuel. apply while_loop_no_index_error, bookkeeping_initial.
  - intros m Hrun.
    pose proof (bookkeeping_reachable _ _ _ Hrun) as (Hlen & Hle & Hst & _).
    repeat split; auto.
    + rewrite Hst. apply Forall_forall. intros i Hi.
      apply elem_of_seq in Hi. lia.
    + rewrite Hst. apply NoDup_seq.
    + intros Hg. apply loop_body_defined. rewrite Hlen. apply guard_true, Hg.
  - intros fuel m Hret.
    destruct (while_loop_returned _ _ _ Hret) as [Hrun Hstop].
    apply guard_false in Hstop.
    pose proof (bookkeeping_reachable _ _ _ Hrun) as (_ & Hle & Hst & _).
    assert (Hstep : step m = num_steps) by lia.
    rewrite Hst, Hstep. auto.
Qed.

(** ** Further properties of the cell *)

Lemma failed_moves_app (l l' : list Event) :
  failed_moves (l ++ l') = (failed_moves l + failed_moves l')%nat.
Proof. unfold failed_moves. rewrite List.filter_app, length_app. reflexivity. Qed.

Lemma plots_app (l l' : list Event) :
  plots (l ++ l') = (plots l + plots l')%nat.
Proof. unfold plots. rewrite List.filter_app, length_app. reflexivity. Qed.

Lemma iterate_rtc (n : nat) (m m' : Machine Rng) :
  iterate n m = Some m' -> rtc iteration m m'.
Proof.
  revert m. induction n as [| n IH]; intros m; simpl.
  - intros [= <-]. apply rtc_refl.
  - destruct (guard m) eqn:Hg; [| discriminate].
    destruct (loop_body m) as [m1 |] eqn:Hbody; [| discriminate].
    intros Hit. eapply rtc_l; [split; eassumption | apply IH, Hit].
Qed.

(** A run that returns is a number of iterations within the fuel. *)
Lemma while_loop_iterate (fuel : nat) (m m' : Machine Rng) :
  while_loop fuel m = Returned m' ->
  exists n, (n <= fuel)%nat /\ iterate n m = Some m'.
Proof.
  revert m. induction fuel as [| fuel IH]; intros m; simpl;
    destruct (guard m) eqn:Hg; try discriminate.
  - intros [= <-]. exists 0%nat. split; [lia | reflexivity].
  - destruct (loop_body m) as [m1 |] eqn:Hbody; [| discriminate].
    intros Hrun. destruct (IH _ Hrun) as (n & Hn & Hit).
    exists (S n). split; [lia |]. simpl. rewrite Hg, Hbody. exact Hit.
  - intros [= <-]. exists 0%nat. split; [lia | reflexivity].
Qed.

(** Every iteration calls [move()] exactly once. *)
Lemma iterate_counts_moves (n : nat) (m m' : Machine Rng) :
  iterate n m = Some m' ->
  (successful_moves (events m') + failed_moves (events m'))%nat
  = (successful_moves (events m) + failed_moves (events m) + n)%nat.
Proof.
  revert m. induction n as [| n IH]; intros m; simpl.
  - intros [= <-]. lia.
  - destruct (guard m) eqn:Hg; [| discriminate].
    destruct (loop_body m) as [m1 |] eqn:Hbody; [| discriminate].
    intros Hit. rewrite (IH _ Hit).
    destruct (loop_body_cases _ _ Hbody) as [a1 g1 _ -> | a1 g1 e _ _ _ _ -> | a1 g1 e _ _ _ _ ->];
      cbn [events]; rewrite successful_moves_app, failed_moves_app;
      unfold successful_moves at 2, failed_moves at 2; cbn; lia.
Qed.

(** One iteration never raises the cached energy, and changes the
    committed coordinates only when it lowers it. *)
Lemma iteration_energy (m m' : Machine Rng) :
  move_keeps_committed move ->
  iteration m m' ->
  AminoAcidChain.prev_energy (aa m') <= AminoAcidChain.prev_energy (aa m) /\
  (AminoAcidChain.prev_energy (aa m') = AminoAcidChain.prev_energy (aa m) ->
   AminoAcidChain.x (aa m') = AminoAcidChain.x (aa m) /\
   AminoAcidChain.y (aa m') = AminoAcidChain.y (aa m)).
Proof.
  intros Hframe [_ Hbody].
  destruct (loop_body_cases _ _ Hbody)
    as [a1 g1 Hmove -> | a1 g1 e Hmove _ Hlt _ -> | a1 g1 e Hmove _ Hge _ ->];
    destruct (move_frame _ _ _ _ _ Hframe Hmove) as (Hx & Hy & Hprev); cbn.
  - split; [lia | auto].
  - split; [lia | intros; lia].
  - split; [lia | auto].
Qed.

Lemma run_energy (m m' : Machine Rng) :
  move_keeps_committed move ->
  rtc iteration m m' ->
  AminoAcidChain.prev_energy (aa m') <= AminoAcidChain.prev_energy (aa m) /\
  (AminoAcidChain.prev_energy (aa m') = AminoAcidChain.prev_energy (aa m) ->
   AminoAcidChain.x (aa m') = AminoAcidChain.x (aa m) /\
   AminoAcidChain.y (aa m') = AminoAcidChain.y (aa m)).
Proof.
  intros Hframe Hrun. revert m' Hrun. apply rtc_ind_r.
  - split; [lia | auto].
  - intros m1 m2 _ Hstep [IHle IHeq].
    destruct (iteration_energy _ _ Hframe Hstep) as [Hle Heq].
    split; [lia |]. intros Hsame.
    destruct Heq as [Hx Hy]; [lia |]. destruct IHeq as [Hx' Hy']; [lia |].
    split; congruence.
Qed.

(** X1: in every state of a run, the entries of [energy_change] at and
    beyond the current step are still the zeros [np.zeros] put there. *)
Theorem X1_unwritten_entries_stay_zero
    (a : AminoAcidChain.t) (g : Rng) (m : Machine Rng) (k : nat) :
  reachable a g m ->
  (step m <= k < num_steps)%nat ->
  energy_change m !! k = Some 0.
Proof.
  intros Hrun. revert k.
  apply (reachable_ind
           (fun m => forall k, (step m <= k < num_steps)%nat -> energy_change m !! k = Some 0)
           a g); [| | exact Hrun].
  - intros k Hk. cbn. apply lookup_replicate_2. lia.
  - clear m Hrun. intros m m' _ [_ Hbody] IH k Hk.
    destruct (loop_body_cases _ _ Hbody) as [a1 g1 _ -> | a1 g1 e _ _ _ _ -> | a1 g1 e _ _ _ _ ->];
      cbn [step energy_change] in *.
    + apply IH, Hk.
    + rewrite list_lookup_insert_ne by lia. apply IH. lia.
    + rewrite list_lookup_insert_ne by lia. apply IH. lia.
Qed.

(** X2: between any two states of a run the cached energy never rises, and
    the committed coordinates differ only if the cached energy has strictly
    dropped (given that [move()] leaves the committed state alone). *)
Theorem X2_coordinates_change_only_with_lower_energy (m m' : Machine Rng) :
  move_keeps_committed move ->
  rtc iteration m m' ->
  AminoAcidChain.prev_energy (aa m') <= AminoAcidChain.prev_energy (aa m) /\
  (AminoAcidChain.x (aa m') <> AminoAcidChain.x (aa m) \/
   AminoAcidChain.y (aa m') <> AminoAcidChain.y (aa m) ->
   AminoAcidChain.prev_energy (aa m') < AminoAcidChain.prev_energy (aa m)).
Proof.
  intros Hframe Hrun. destruct (run_energy _ _ Hframe Hrun) as [Hle Heq].
  split; [exact Hle |]. intros Hdiff.
  destruct (Z.eq_dec (AminoAcidChain.prev_energy (aa m'))
                     (AminoAcidChain.prev_energy (aa m))) as [Hsame | Hne]; [| lia].
  destruct (Heq Hsame) as [Hx Hy]. destruct Hdiff as [Hd | Hd]; contradiction.
Qed.

(** Nothing recorded exceeds the energy the chain started with. *)
Lemma recorded_below_initial
    (a : AminoAcidChain.t) (g : Rng) (m : Machine Rng) (k : nat) (v : Z) :
  move_keeps_committed move ->
  reachable a g m ->
  (k < step m)%nat ->
  energy_change m !! k = Some v ->
  v <= AminoAcidChain.prev_energy a.
Proof.
  intros Hframe Hrun. revert k v.
  apply (reachable_ind
           (fun m => forall k v, (k < step m)%nat -> energy_change m !! k = Some v ->
                     v <= AminoAcidChain.prev_energy a)
           a g); [| | exact Hrun].
  - cbn. intros; lia.
  - clear m Hrun. intros m m' Hm [Hg Hbody] IH k v Hk Hv.
    destruct (run_energy _ _ Hframe Hm) as [Hinit _]. cbn [initial aa] in Hinit.
    destruct (loop_body_cases _ _ Hbody)
      as [a1 g1 Hmove -> | a1 g1 e Hmove _ Hlt Hlen -> | a1 g1 e Hmove _ Hge Hlen ->];
      destruct (move_frame _ _ _ _ _ Hframe Hmove) as (_ & _ & Hprev);
      cbn [step energy_change] in *.
    + eapply IH; eauto.
    + destruct (decide (k = step m)) as [-> | Hne].
      * rewrite list_lookup_insert_eq in Hv by lia. injection Hv as <-. lia.
      * rewrite list_lookup_insert_ne in Hv by lia. eapply IH; [| exact Hv]. lia.
    + destruct (decide (k = step m)) as [-> | Hne].
      * rewrite list_lookup_insert_eq in Hv by lia. injection Hv as <-. lia.
      * rewrite list_lookup_insert_ne in Hv by lia. eapply IH; [| exact Hv]. lia.
Qed.

(** X3: every entry recorded so far lies between the current cached energy
    and the energy the chain started with (given that [move()] leaves the
    committed state alone). *)
Theorem X3_recorded_entries_between_current_and_initial
    (a : AminoAcidChain.t) (g : Rng) (m : Machine Rng) (k : nat) :
  move_keeps_committed move ->
  reachable a g m ->
  (k < step m)%nat ->
  exists v,
    energy_change m !! k = Some v /\
    AminoAcidChain.prev_energy (aa m) <= v <= AminoAcidChain.prev_energy a.
Proof.
  intros Hframe Hrun Hk.
  destruct (descending_reachable _ _ _ Hframe Hrun) as (Hlow & _ & _).
  destruct (Hlow k Hk) as (v & Hv & Hle).
  exists v. split; [exact Hv |]. split; [exact Hle |].
  eapply recorded_below_initial; eauto.
Qed.

(** X4: the number of accepted candidates so far is at most the amount by
    which the cached energy has dropped since the start: every acceptance
    lowers the integer energy by at least one (given that [move()] leaves
    the committed state alone). *)
Theorem X4_updates_bounded_by_energy_drop
    (a : AminoAcidChain.t) (g : Rng) (m : Machine Rng) :
  move_keeps_committed move ->
  reachable a g m ->
  Z.of_nat (updates (events m))
  <= AminoAcidChain.prev_energy a - AminoAcidChain.prev_energy (aa m).
Proof.
  intros Hframe Hrun. pattern m.
  apply (reachable_ind _ a g); [| | exact Hrun]; cbv beta; clear m Hrun.
  - cbn. lia.
  - intros m m' _ [_ Hbody] IH.
    destruct (loop_body_cases _ _ Hbody)
      as [a1 g1 Hmove -> | a1 g1 e Hmove _ Hlt _ -> | a1 g1 e Hmove _ Hge _ ->];
      destruct (move_frame _ _ _ _ _ Hframe Hmove) as (_ & _ & Hprev);
      cbn [events aa]; rewrite updates_app; unfold updates at 2; cbn; lia.
Qed.

(** X5: every "Update" line printed during a run names a step below
    [num_steps] and a new energy strictly below the old one, and the chain
    is plotted exactly once per such line. *)
Theorem X5_update_lines_show_improvement
    (a : AminoAcidChain.t) (g : Rng) (m : Machine Rng) :
  reachable a g m ->
  Forall (shows_improvement num_steps) (events m) /\
  plots (events m) = updates (events m).
Proof.
  intros Hrun. pattern m.
  apply (reachable_ind _ a g); [| | exact Hrun]; cbv beta; clear m Hrun.
  - split; [constructor | reflexivity].
  - intros m m' _ [Hg Hbody] [IHall IHplots]. apply guard_true in Hg.
    destruct (loop_body_cases _ _ Hbody)
      as [a1 g1 _ -> | a1 g1 e _ _ Hlt _ -> | a1 g1 e _ _ _ _ ->];
      cbn [events]; rewrite plots_app, updates_app, IHplots;
      (split; [apply Forall_app; split; [exact IHall |] | reflexivity]);
      repeat constructor; auto.
Qed.

(** X6: the loop keeps the cache honest.  If the chain starts with
    [prev_energy] equal to the energy of its coordinates, [move()] keeps the
    committed state, the length and the hydrophobic residues, and the energy
    function reads nothing else of the object, then in every state of a run
    the chain has its initial length and hydrophobic residues and
    [prev_energy] is the energy of the committed [x], [y]. *)
Theorem X6_cached_energy_matches_coordinates
    (a : AminoAcidChain.t) (g : Rng) (m : Machine Rng) :
  move_keeps_committed move ->
  move_keeps_identity move ->
  energy_of_sequence measure_energy ->
  AminoAcidChain.prev_energy a
    = measure_energy a (AminoAcidChain.x a) (AminoAcidChain.y a) ->
  reachable a g m ->
  AminoAcidChain.N (aa m) = AminoAcidChain.N a /\
  AminoAcidChain.h (aa m) = AminoAcidChain.h a /\
  AminoAcidChain.prev_energy (aa m)
    = measure_energy (aa m) (AminoAcidChain.x (aa m)) (AminoAcidChain.y (aa m)).
Proof.
  intros Hframe Hid Hseq Hinit Hrun. pattern m.
  apply (reachable_ind _ a g); [| | exact Hrun]; cbv beta; clear m Hrun.
  - cbn. auto.
  - intros m m' _ [_ Hbody] (HN & Hh & Hcache).
    destruct (loop_body_cases _ _ Hbody)
      as [a1 g1 Hmove -> | a1 g1 e Hmove He Hlt _ -> | a1 g1 e Hmove He Hge _ ->];
      destruct (move_frame _ _ _ _ _ Hframe Hmove) as (Hx & Hy & Hprev);
      pose proof (Hid (aa m) (rng m)) as [HN1 Hh1]; rewrite Hmove in HN1, Hh1;
      cbn [fst snd] in HN1, Hh1; cbn.
    + repeat split; try congruence.
      rewrite Hprev, Hx, Hy, Hcache. apply Hseq; congruence.
    + repeat split; try congruence. rewrite He. apply Hseq; reflexivity.
    + repeat split; try congruence.
      rewrite Hprev, Hx, Hy, Hcache. apply Hseq; cbn; congruence.
Qed.

(** X7: a run that returns has executed the loop body exactly
    [num_steps] plus the number of failed proposals times. *)
Theorem X7_iterations_are_budget_plus_retries
    (fuel : nat) (a : AminoAcidChain.t) (g : Rng) (m : Machine Rng) :
  while_loop fuel (initial a g) = Returned m ->
  exists n,
    (n <= fuel)%nat /\
    iterate n (initial a g) = Some m /\
    n = (num_steps + failed_moves (events m))%nat.
Proof.
  intros Hret.
  destruct (while_loop_iterate _ _ _ Hret) as (n & Hn & Hit).
  exists n. split; [exact Hn |]. split; [exact Hit |].
  destruct (while_loop_returned _ _ _ Hret) as [Hrun Hstop].
  apply guard_false in Hstop.
  pose proof (bookkeeping_reachable _ _ _ Hrun) as (_ & Hle & _ & Hsucc & _).
  pose proof (iterate_counts_moves _ _ _ Hit) as Hcount.
  cbn in Hcount. lia.
Qed.

(** With a generator that never fails, a state with [n] steps of budget
    left returns after exactly [n] iterations, none of them a retry. *)
Lemma eager_run (n : nat) :
  always_succeeds move ->
  forall m : Machine Rng,
    bookkeeping m ->
    (num_steps - step m)%nat = n ->
    exists m',
      while_loop n m = Returned m' /\
      iterate n m = Some m' /\
      failed_moves (events m') = failed_moves (events m).
Proof.
  intros Halways. induction n as [| n IH]; intros m Hbk Hleft.
  - exists m. split; [apply while_loop_done, guard_false; lia |]. split; reflexivity.
  - assert (Hg : guard m = true) by (apply guard_true; lia).
    destruct (loop_body_defined m) as [m1 Hbody].
    { destruct Hbk as (-> & _). lia. }
    assert (Hm1 : step m1 = S (step m) /\
                  failed_moves (events m1) = failed_moves (events m)).
    { destruct (loop_body_cases _ _ Hbody)
        as [a1 g1 Hmove _ | a1 g1 e _ _ _ _ -> | a1 g1 e _ _ _ _ ->].
      - specialize (Halways (aa m) (rng m)). rewrite Hmove in Halways. discriminate.
      - cbn [step events]. rewrite failed_moves_app. unfold failed_moves at 2. cbn.
        split; [reflexivity | lia].
      - cbn [step events]. rewrite failed_moves_app. unfold failed_moves at 2. cbn.
        split; [reflexivity | lia]. }
    destruct Hm1 as [Hstep Hfail].
    destruct (IH m1) as (m' & Hret & Hit & Hf).
    + eapply bookkeeping_iteration; [exact Hbk | split; assumption].
    + lia.
    + exists m'. split; [| split].
      * rewrite (while_loop_unfold _ _ _ Hg Hbody). exact Hret.
      * simpl. rewrite Hg, Hbody. exact Hit.
      * congruence.
Qed.

(** X8: when every proposal is valid, the loop returns after exactly
    [num_steps] iterations, with no retry, and it has not returned after
    any smaller number of iterations. *)
Theorem X8_no_failures_means_num_steps_iterations
    (a : AminoAcidChain.t) (g : Rng) :
  always_succeeds move ->
  exists m,
    while_loop num_steps (initial a g) = Returned m /\
    iterate num_steps (initial a g) = Some m /\
    failed_moves (events m) = 0%nat /\
    (forall fuel, (fuel < num_steps)%nat -> while_loop fuel (initial a g) = OutOfFuel).
Proof.
  intros Halways.
  destruct (eager_run (num_steps - 0) Halways (initial a g)) as (m & Hret & Hit & Hf).
  - apply bookkeeping_initial.
  - reflexivity.
  - rewrite Nat.sub_0_r in Hret, Hit. exists m. repeat split; auto.
    intros fuel Hfuel.
    destruct (while_loop fuel (initial a g)) as [m' | |] eqn:Hrun.
    + destruct (while_loop_iterate _ _ _ Hrun) as (n & Hn & Hitn).
      destruct (while_loop_returned _ _ _ Hrun) as [Hreach Hstop].
      apply guard_false in Hstop.
      pose proof (bookkeeping_reachable _ _ _ Hreach) as (_ & _ & _ & Hsucc & _).
      pose proof (iterate_counts_moves _ _ _ Hitn) as Hcount. cbn in Hcount. lia.
    + exfalso. eapply while_loop_no_index_error; [apply bookkeeping_initial | exact Hrun].
    + reflexivity.
Qed.


(** The largest entry of a list none of whose entries exceeds the first
    is the first. *)
Lemma fold_left_max_head (l : list Z) (v : Z) :
  Forall (fun w => w <= v) l -> fold_left Z.max l v = v.
Proof.
  induction l as [| w l IH]; intros Hall; simpl; [reflexivity |].
  inversion Hall as [| ? ? Hw Hl]; subst.
  rewrite Z.max_l by lia. apply IH, Hl.
Qed.

(** X10: after a run with at least one step that returns, the limits
    handed to [plt.axis] are [0, num_steps, 0, top] where [top], the maximum
    of [energy_change], is its first entry, which lies between the final and
    the initial cached energy (given that [move()] leaves the committed
    state alone). *)
Theorem X10_axis_top_is_first_entry
    (fuel : nat) (a : AminoAcidChain.t) (g : Rng) (m : Machine Rng) :
  move_keeps_committed move ->
  (1 <= num_steps)%nat ->
  while_loop fuel (initial a g) = Returned m ->
  exists top,
    energy_change m !! 0%nat = Some top /\
    py_max (energy_change m) = Some top /\
    axis_limits (energy_change m) = Some [0; Z.of_nat num_steps; 0; top] /\
    AminoAcidChain.prev_energy (aa m) <= top <= AminoAcidChain.prev_energy a.
Proof.
  intros Hframe Hpos Hret.
  destruct (while_loop_returned _ _ _ Hret) as [Hrun Hstop].
  apply guard_false in Hstop.
  pose proof (bookkeeping_reachable _ _ _ Hrun) as (Hlen & Hle & _).
  destruct (descending_reachable _ _ _ Hframe Hrun) as (Hlow & Hmono & _).
  assert (Hstep : step m = num_steps) by lia.
  destruct (Hlow 0%nat) as (top & Htop & Hge); [lia |].
  assert (Hinit : top <= AminoAcidChain.prev_energy a).
  { eapply (recorded_below_initial a g m 0%nat); [exact Hframe | exact Hrun | lia | exact Htop]. }
  assert (Hhead : forall k w, energy_change m !! k = Some w -> w <= top).
  { induction k as [| k IHk]; intros w Hw.
    - rewrite Htop in Hw. injection Hw as <-. lia.
    - pose proof (lookup_lt_Some _ _ _ Hw) as Hk.
      destruct (Hmono k) as (v' & w' & Hv' & Hw' & Hle'); [lia |].
      rewrite Hw in Hw'. injection Hw' as <-. specialize (IHk _ Hv'). lia. }
  exists top. split; [exact Htop |].
  destruct (energy_change m) as [| v ec] eqn:Hec; [discriminate |].
  cbn in Htop. injection Htop as ->.
  assert (Hmax : fold_left Z.max ec top = top).
  { apply fold_left_max_head, Forall_forall. intros w Hw.
    apply list_elem_of_lookup_1 in Hw as [k Hk]. apply (Hhead (S k)). exact Hk. }
  split; [cbn; congruence |]. split; [| lia].
  unfold axis_limits. cbn [py_max]. rewrite Hmax, Hlen. reflexivity.
Qed.

End Optimizer.

(** C7: with a budget of 0 steps the loop returns at once, whatever the
    fuel: the whole state (chain, random state, counter, array, event log)
    is the initial one, so [move()] was never called, no energy was
    evaluated and nothing was committed; the cell's only effect is the final
    print of the initial cached energy. *)
Theorem C7_zero_budget_changes_nothing {Rng : Type}
    (move : AminoAcidChain.t -> Rng -> bool * AminoAcidChain.t * Rng)
    (measure_energy : AminoAcidChain.t -> list Z -> list Z -> Z)
    (fuel : nat) (a : AminoAcidChain.t) (g : Rng) :
  while_loop move measure_energy 0 fuel (initial 0 a g) = Returned (initial 0 a g) /\
  initial 0 a g = mkMachine a g 0 [] [] /\
  optimizer move measure_energy 0 fuel a g
    = Returned (mkMachine a g 0 [] [EPrintLowest (AminoAcidChain.prev_energy a)]).
Proof.
  assert (Hloop : while_loop move measure_energy 0 fuel (initial 0 a g)
                  = Returned (initial 0 a g)) by (destruct fuel; reflexivity).
  split; [exact Hloop |]. split; [reflexivity |].
  unfold optimizer. rewrite Hloop. reflexivity.
Qed.

(** ** The energy function *)

Lemma foldr_add_zero {A : Type} (f : A -> Z) (l : list A) :
  (forall i, i ∈ l -> f i = 0) -> foldr Z.add 0 (map f l) = 0.
Proof.
  induction l as [| i l IH]; intros Hzero; simpl; [reflexivity |].
  rewrite (Hzero i) by apply list_elem_of_here.
  rewrite IH; [reflexivity |]. intros j Hj. apply Hzero, list_elem_of_further, Hj.
Qed.

(** The two shapes of the six-residue example: the straight chain has 8
    unfavourable contacts, the U shape 6. *)
Example energy_straight :
  Energy.measure_energy Demo.chain Demo.straight_x Demo.straight_y = 8.
Proof. reflexivity. Qed.

Example energy_folded :
  Energy.measure_energy Demo.chain Demo.folded_x Demo.folded_y = 6.
Proof. reflexivity. Qed.

(** C8: a chain none of whose residues is hydrophobic has energy 0 for
    every pair of coordinate arrays. *)
Theorem C8_no_hydrophobic_residue_zero_energy
    (a : AminoAcidChain.t) (xs ys : list Z) :
  (forall i, (i < AminoAcidChain.N a)%nat -> Energy.hydrophobic a i = false) ->
  Energy.measure_energy a xs ys = 0.
Proof.
  intros Hpolar. unfold Energy.measure_energy.
  apply foldr_add_zero. intros i Hi.
  apply elem_of_seq in Hi. rewrite Hpolar by lia. reflexivity.
Qed.

Lemma C8_witness :
  Energy.measure_energy Demo.polar_chain Demo.folded_x Demo.folded_y = 0.
Proof.
  apply (C8_no_hydrophobic_residue_zero_energy Demo.polar_chain).
  intros i _. reflexivity.
Defined.

(** ** The loop on the six-residue chain *)

Lemma Demo_move_keeps_committed : move_keeps_committed Demo.move.
Proof.
  intros a g. unfold Demo.move, Demo.scripted.
  destruct (Demo.script g) as [[cx cy] |]; simpl; auto.
Qed.

Lemma Demo_move_eventually_succeeds (a : AminoAcidChain.t) (g : nat) :
  eventually_succeeds Demo.move a g.
Proof.
  assert (Hodd : forall a g, Nat.even g = false -> eventually_succeeds Demo.move a g).
  { intros a' g' Hg'. unfold Demo.move.
    destruct (Demo.script g') as [[cx cy] |] eqn:Hs.
    - eapply succeeds_now. unfold Demo.scripted. rewrite Hs. reflexivity.
    - unfold Demo.script in Hs. rewrite Hg' in Hs. destruct (Nat.eqb g' 1); discriminate. }
  destruct (Nat.even g) eqn:Hg; [| apply Hodd, Hg].
  eapply succeeds_later.
  - unfold Demo.move, Demo.scripted, Demo.script. rewrite Hg. reflexivity.
  - apply Hodd. rewrite Nat.even_succ, <- Nat.negb_even, Hg. reflexivity.
Qed.

Lemma Demo_stuck_move_never_succeeds : never_succeeds Demo.stuck_move.
Proof. intros a g. reflexivity. Qed.

Lemma Demo_reachable_after_failure :
  reachable Demo.move Energy.measure_energy 2 Demo.chain 0%nat Demo.after_failure.
Proof. apply (iterate_reachable _ _ _ 1). reflexivity. Qed.

Lemma Demo_reachable_before_reject :
  reachable Demo.move Energy.measure_energy 2 Demo.chain 0%nat Demo.before_reject.
Proof. apply (iterate_reachable _ _ _ 3). reflexivity. Qed.

Lemma Demo_reachable_finished :
  reachable Demo.move Energy.measure_energy 2 Demo.chain 0%nat Demo.finished.
Proof. apply (iterate_reachable _ _ _ 4). reflexivity. Qed.

Lemma C1_witness :
  exists m',
    loop_body Demo.move Energy.measure_energy Demo.after_failure = Some m' /\
    updates (events m') = 1%nat /\
    AminoAcidChain.x (aa m') = Demo.folded_x /\
    AminoAcidChain.y (aa m') = Demo.folded_y /\
    AminoAcidChain.prev_energy (aa m') = 6.
Proof.
  destruct (C1_commit_iff_strictly_lower Demo.move Energy.measure_energy 2
              Demo.chain 0%nat Demo.after_failure
              (AminoAcidChain.set_candidate Demo.folded_x Demo.folded_y Demo.chain) 2%nat
              Demo_reachable_after_failure eq_refl eq_refl)
    as (m' & Hbody & Hiff & Hacc & _).
  exists m'. split; [exact Hbody |].
  split; [apply Hiff; reflexivity |].
  apply Hacc. reflexivity.
Defined.

Lemma C2_witness :
  exists v w,
    energy_change Demo.finished !! 0%nat = Some v /\
    energy_change Demo.finished !! 1%nat = Some w /\ w <= v.
Proof.
  apply (C2_energy_change_nonincreasing Demo.move Energy.measure_energy 2
           Demo.chain 0%nat Demo.finished 0
           Demo_move_keeps_committed Demo_reachable_finished).
  simpl. lia.
Defined.

Lemma C3_witness :
  step Demo.before_reject = successful_moves (events Demo.before_reject) /\
  exists m',
    loop_body Demo.move Energy.measure_energy Demo.before_reject = Some m' /\
    step m' = 2%nat.
Proof.
  destruct (C3_step_counts_valid_candidates Demo.move Energy.measure_energy 2
              Demo.chain 0%nat Demo.before_reject Demo_reachable_before_reject)
    as [Hcount Hnext].
  split; [exact Hcount |].
  destruct (Hnext eq_refl) as (m' & Hbody & Hsucc & _).
  exists m'. split; [exact Hbody |]. apply Hsucc. reflexivity.
Defined.

Lemma C4_witness :
  exists fuel0 m,
    (forall fuel, (fuel0 <= fuel)%nat ->
       optimizer Demo.move Energy.measure_energy 2 fuel Demo.chain 0%nat
       = Returned (report m)) /\
    step m = 2%nat.
Proof.
  destruct (C4_terminates_after_num_steps_evaluations Demo.move Energy.measure_energy 2
              Demo.chain 0%nat
              (fun m _ => Demo_move_eventually_succeeds (aa m) (rng m)))
    as (fuel0 & m & Hret & _ & Hstep & _).
  exists fuel0, m. split; [exact Hret | exact Hstep].
Defined.

Lemma C5_witness :
  exists m',
    loop_body Demo.move Energy.measure_energy Demo.before_reject = Some m' /\
    AminoAcidChain.x (aa m') = Demo.folded_x /\
    AminoAcidChain.y (aa m') = Demo.folded_y /\
    AminoAcidChain.prev_energy (aa m') = 6.
Proof.
  apply (C5_rejected_candidate_leaves_chain Demo.move Energy.measure_energy 2
           Demo.chain 0%nat Demo.before_reject
           (AminoAcidChain.set_candidate Demo.straight_x Demo.straight_y Demo.folded_chain)
           4%nat
           Demo_move_keeps_committed Demo_reachable_before_reject eq_refl eq_refl).
  vm_compute. intros H. discriminate H.
Defined.

(** C6 as claimed fails: with a generator that never finds a candidate no
    amount of fuel makes the cell produce any outcome, exhaustion or
    otherwise. *)
Lemma C6_counterexample :
  ~ (exists fuel,
       optimizer Demo.stuck_move Energy.measure_energy 1 fuel Demo.chain tt <> OutOfFuel).
Proof.
  intros [fuel Hout]. apply Hout. unfold optimizer.
  rewrite while_loop_stuck; [reflexivity | apply Demo_stuck_move_never_succeeds | reflexivity].
Qed.

Lemma C6_witness :
  1 <= 1 /\
  optimizer Demo.stuck_move Energy.measure_energy 1 1000 Demo.chain tt = OutOfFuel.
Proof.
  split; [lia |].
  apply (C6_failed_proposals_retry_forever Demo.stuck_move Energy.measure_energy 1
           Demo.chain tt Demo_stuck_move_never_succeeds).
  lia.
Defined.

Lemma C9_witness :
  last (events (report Demo.finished)) = Some (EPrintLowest 6) /\
  last (energy_change (report Demo.finished)) = Some 6 /\
  list_min (energy_change (report Demo.finished)) = Some 6.
Proof.
  apply (C9_final_energy_is_last_and_min Demo.move Energy.measure_energy 2 4
           Demo.chain 0%nat (report Demo.finished) Demo_move_keeps_committed).
  - lia.
  - vm_compute. reflexivity.
Defined.

Lemma C10_witness :
  stored_indices (events Demo.finished) = [0; 1]%nat /\
  Forall (fun i => (i < 2)%nat) (stored_indices (events Demo.finished)).
Proof.
  destruct (C10_stores_in_bounds Demo.move Energy.measure_energy 2 Demo.chain 0%nat)
    as (_ & Hreach & _).
  destruct (Hreach Demo.finished Demo_reachable_finished) as (_ & _ & Hst & Hall & _).
  split; [exact Hst | exact Hall].
Defined.

(** ** Further properties: the plot after the loop, and instances *)

(** X11: with a budget of 0 steps the loop returns with an empty
    [energy_change], so the [max(energy_change)] of the plotting code that
    follows raises [ValueError]: no axis limits are produced. *)
Theorem X11_zero_budget_plot_raises {Rng : Type}
    (move : AminoAcidChain.t -> Rng -> bool * AminoAcidChain.t * Rng)
    (measure_energy : AminoAcidChain.t -> list Z -> list Z -> Z)
    (fuel : nat) (a : AminoAcidChain.t) (g : Rng) :
  exists m,
    optimizer move measure_energy 0 fuel a g = Returned m /\
    energy_change m = [] /\
    py_max (energy_change m) = None /\
    axis_limits (energy_change m) = None.
Proof.
  exists (report (initial 0 a g)). split; [| repeat split].
  unfold optimizer. rewrite while_loop_done; reflexivity.
Qed.



Lemma Energy_measure_of_sequence : energy_of_sequence Energy.measure_energy.
Proof.
  intros a a' xs ys HN Hh.
  unfold Energy.measure_energy, Energy.unfavourable, Energy.other_H_at, Energy.hydrophobic.
  rewrite HN, Hh. reflexivity.
Qed.

Lemma Demo_move_keeps_identity : move_keeps_identity Demo.move.
Proof.
  intros a g. unfold Demo.move, Demo.scripted.
  destruct (Demo.script g) as [[cx cy] |]; simpl; auto.
Qed.

Lemma Demo_eager_move_always_succeeds : always_succeeds Demo.eager_move.
Proof. intros a g. reflexivity. Qed.

Lemma Demo_run_after_failure_finished :
  rtc (iteration Demo.move Energy.measure_energy 2) Demo.after_failure Demo.finished.
Proof. apply (iterate_rtc _ _ _ 3). reflexivity. Qed.


Lemma Demo_loop_returns_finished :
  while_loop Demo.move Energy.measure_energy 2 10 (initial 2 Demo.chain 0%nat)
  = Returned Demo.finished.
Proof. reflexivity. Qed.

Lemma X1_witness : energy_change Demo.before_reject !! 1%nat = Some 0.
Proof.
  apply (X1_unwritten_entries_stay_zero Demo.move Energy.measure_energy 2
           Demo.chain 0%nat Demo.before_reject 1 Demo_reachable_before_reject).
  simpl. lia.
Defined.

Lemma X2_witness :
  AminoAcidChain.prev_energy (aa Demo.finished)
  < AminoAcidChain.prev_energy (aa Demo.after_failure).
Proof.
  apply (X2_coordinates_change_only_with_lower_energy Demo.move Energy.measure_energy 2
           Demo.after_failure Demo.finished
           Demo_move_keeps_committed Demo_run_after_failure_finished).
  left. vm_compute. intros H. discriminate H.
Defined.

Lemma X3_witness :
  exists v, energy_change Demo.finished !! 0%nat = Some v /\ 6 <= v <= 8.
Proof.
  apply (X3_recorded_entries_between_current_and_initial Demo.move Energy.measure_energy 2
           Demo.chain 0%nat Demo.finished 0
           Demo_move_keeps_committed Demo_reachable_finished).
  simpl. lia.
Defined.

Lemma X4_witness : Z.of_nat (updates (events Demo.finished)) <= 8 - 6.
Proof.
  apply (X4_updates_bounded_by_energy_drop Demo.move Energy.measure_energy 2
           Demo.chain 0%nat Demo.finished
           Demo_move_keeps_committed Demo_reachable_finished).
Defined.

Lemma X5_witness :
  Forall (shows_improvement 2) (events Demo.finished) /\
  plots (events Demo.finished) = updates (events Demo.finished).
Proof.
  apply (X5_update_lines_show_improvement Demo.move Energy.measure_energy 2
           Demo.chain 0%nat Demo.finished Demo_reachable_finished).
Defined.

Lemma X6_witness :
  AminoAcidChain.prev_energy (aa Demo.finished)
  = Energy.measure_energy (aa Demo.finished)
      (AminoAcidChain.x (aa Demo.finished)) (AminoAcidChain.y (aa Demo.finished)).
Proof.
  apply (X6_cached_energy_matches_coordinates Demo.move Energy.measure_energy 2
           Demo.chain 0%nat Demo.finished
           Demo_move_keeps_committed Demo_move_keeps_identity
           Energy_measure_of_sequence eq_refl Demo_reachable_finished).
Defined.

Lemma X7_witness :
  exists n,
    (n <= 10)%nat /\
    iterate Demo.move Energy.measure_energy 2 n (initial 2 Demo.chain 0%nat)
    = Some Demo.finished /\
    n = (2 + failed_moves (events Demo.finished))%nat.
Proof.
  apply (X7_iterations_are_budget_plus_retries Demo.move Energy.measure_energy 2
           10 Demo.chain 0%nat Demo.finished Demo_loop_returns_finished).
Defined.

Lemma X8_witness :
  exists m,
    while_loop Demo.eager_move Energy.measure_energy 2 2 (initial 2 Demo.chain tt)
    = Returned m /\
    failed_moves (events m) = 0%nat.
Proof.
  destruct (X8_no_failures_means_num_steps_iterations Demo.eager_move
              Energy.measure_energy 2 Demo.chain tt Demo_eager_move_always_succeeds)
    as (m & Hret & _ & Hfail & _).
  exists m. split; [exact Hret | exact Hfail].
Defined.


Lemma X10_witness :
  exists top,
    energy_change Demo.finished !! 0%nat = Some top /\
    py_max (energy_change Demo.finished) = Some top /\
    axis_limits (energy_change Demo.finished) = Some [0; 2; 0; top] /\
    6 <= top <= 8.
Proof.
  apply (X10_axis_top_is_first_entry Demo.move Energy.measure_energy 2
           10 Demo.chain 0%nat Demo.finished Demo_move_keeps_committed).
  - lia.
  - reflexivity.
Defined.
